(** * ArrayMatcher_cascadeHashing: the cascade hashing matcher of AliceVision

    Shallow embedding of
    [src/aliceVision/matching/ArrayMatcher_cascadeHashing.hpp]: the class
    [ArrayMatcher_cascadeHashing<Scalar, Metric>] with its three operations
    [Build], [SearchNeighbour] and [SearchNeighbours].

    The class is a thin stateful wrapper around [CascadeHasher]
    ([CascadeHasher.hpp]), whose code is not available here.  The wrapper is
    therefore stated over an interface ([CascadeHasherT]) that lists the
    operations the wrapper calls; a second part gives a model of these
    operations that follows sections 3 and 4 of the specification. *)

From Stdlib Require Import ZArith QArith String Lia.
From stdpp Require Import base list sorting gmap.

Local Open Scope Z_scope.

(** ** Machine integers *)

(** [int] is 32 bits wide, [size_t] and [Eigen::Index] are 64 bits wide. *)
Definition is_int (z : Z) : Prop := - 2 ^ 31 <= z < 2 ^ 31.

(** The usual arithmetic conversion of a signed [Eigen::Index] that is
    compared with a [size_t]: the signed operand wraps around modulo 2^64. *)
Definition size_t_of_Index (z : Z) : Z := z mod 2 ^ 64.

(** ** Data *)

(** [Eigen::Map<BaseMat>]: a row-major [rows] x [cols] view over a buffer the
    caller owns.  The view stores the pointer and the two extents and nothing
    else; in particular it does not know how long the buffer is. *)
Record EigenMap (Scalar : Type) : Type := mkMap {
  data : list Scalar;
  rows : Z;
  cols : Z
}.
Arguments mkMap {Scalar} _ _ _.
Arguments data {Scalar} _.
Arguments rows {Scalar} _.
Arguments cols {Scalar} _.

(** [IndMatch]: a pair (query row, dataset row). *)
Record IndMatch : Type := mkIndMatch { i_ : nat; j_ : nat }.
Definition IndMatches : Type := list IndMatch.

(** The operations of [CascadeHasher] and the types of the members that the
    wrapper only passes around.  [Init] has a result that [Build] drops; the
    hasher and the random generator are passed by reference, so both come
    back.  [CreateHashedDescriptions] and [Match_HashedDescriptions] read the
    hasher; the latter appends to the two output vectors. *)
Class CascadeHasherT : Type := {
  Scalar : Type;
  DistanceType : Type;
  mt19937 : Type;
  CascadeHasher : Type;
  HashedDescriptions : Type;
  VectorXf : Type;
  CascadeHasher_default : CascadeHasher;
  HashedDescriptions_default : HashedDescriptions;
  VectorXf_default : VectorXf;
  Init : CascadeHasher -> mt19937 -> Z -> bool * CascadeHasher * mt19937;
  GetZeroMeanDescriptor : EigenMap Scalar -> VectorXf;
  CreateHashedDescriptions :
    CascadeHasher -> EigenMap Scalar -> VectorXf -> HashedDescriptions;
  Match_HashedDescriptions :
    CascadeHasher ->
    HashedDescriptions -> EigenMap Scalar ->
    HashedDescriptions -> EigenMap Scalar ->
    IndMatches -> list DistanceType -> Z ->
    IndMatches * list DistanceType
}.

(** ** The matcher *)

Section Matcher.
Context `{ops : CascadeHasherT}.

(** The private members of the class. [memMapping] is a [unique_ptr]:
    [None] is the null pointer. *)
Record ArrayMatcher_cascadeHashing : Type := mkMatcher {
  memMapping : option (EigenMap Scalar);
  cascade_hasher_ : CascadeHasher;
  hashed_base_ : HashedDescriptions;
  zero_mean_descriptor_ : VectorXf
}.

(** The constructor body is empty: every member is default-constructed. *)
Definition ArrayMatcher_cascadeHashing_new : ArrayMatcher_cascadeHashing :=
  {| memMapping := None;
     cascade_hasher_ := CascadeHasher_default;
     hashed_base_ := HashedDescriptions_default;
     zero_mean_descriptor_ := VectorXf_default |}.

(** What a call of [Build] leaves behind: the returned flag, the object,
    and the generator it received by reference. *)
Record BuildResult : Type := mkBuildResult {
  build_ok : bool;
  build_self : ArrayMatcher_cascadeHashing;
  build_gen : mt19937
}.

Definition Build (self : ArrayMatcher_cascadeHashing) (gen : mt19937)
    (dataset : list Scalar) (nbRows dimension : Z) : BuildResult :=
  if nbRows <? 1 then
    {| build_ok := false;
       build_self :=
         {| memMapping := None;
            cascade_hasher_ := cascade_hasher_ self;
            hashed_base_ := hashed_base_ self;
            zero_mean_descriptor_ := zero_mean_descriptor_ self |};
       build_gen := gen |}
  else
    let m := mkMap dataset nbRows dimension in
    let '(_, hasher, gen') := Init (cascade_hasher_ self) gen dimension in
    let zero_mean := GetZeroMeanDescriptor m in
    let hashed := CreateHashedDescriptions hasher m zero_mean in
    {| build_ok := true;
       build_self :=
         {| memMapping := Some m;
            cascade_hasher_ := hasher;
            hashed_base_ := hashed;
            zero_mean_descriptor_ := zero_mean |};
       build_gen := gen' |}.

(** [SearchNeighbour] writes a warning to the log and returns [false]; the
    two output locations are not assigned. *)
Definition single_query_warning : string :=
  "This matcher is not made to match a single query".

Record SingleResult : Type := mkSingleResult {
  single_ok : bool;
  single_self : ArrayMatcher_cascadeHashing;
  single_indice : Z;
  single_distance : DistanceType;
  single_log : list string
}.

Definition SearchNeighbour (self : ArrayMatcher_cascadeHashing)
    (query : list Scalar) (indice : Z) (distance : DistanceType)
    (log : list string) : SingleResult :=
  {| single_ok := false;
     single_self := self;
     single_indice := indice;
     single_distance := distance;
     single_log := log ++ [single_query_warning] |}.

(** [SearchNeighbours]: the two [reserve] calls change the capacity of the
    output vectors, not their contents, and are left out (running out of
    memory is not modelled). *)
Record SearchResult : Type := mkSearchResult {
  search_ok : bool;
  search_self : ArrayMatcher_cascadeHashing;
  search_indices : IndMatches;
  search_distances : list DistanceType
}.

Definition SearchNeighbours (self : ArrayMatcher_cascadeHashing)
    (query : list Scalar) (nbQuery : Z)
    (pvec_indices : IndMatches) (pvec_distances : list DistanceType)
    (NN : Z) : SearchResult :=
  match memMapping self with
  | None => mkSearchResult false self pvec_indices pvec_distances
  | Some m =>
      if (NN >? size_t_of_Index (rows m)) || (nbQuery <? 1) then
        mkSearchResult false self pvec_indices pvec_distances
      else
        let mat_query := mkMap query nbQuery (cols m) in
        let hashed_query :=
          CreateHashedDescriptions (cascade_hasher_ self) mat_query
            (zero_mean_descriptor_ self) in
        let '(indices, distances) :=
          Match_HashedDescriptions (cascade_hasher_ self)
            hashed_query mat_query (hashed_base_ self) m
            pvec_indices pvec_distances NN in
        mkSearchResult true self indices distances
  end.

(** What the caller of [SearchNeighbours] can observe: the returned flag
    and the two output vectors. *)
Definition search_outcome (r : SearchResult)
    : bool * IndMatches * list DistanceType :=
  (search_ok r, search_indices r, search_distances r).

(** One batch-search request, and a run of several of them on one object. *)
Record SearchCall : Type := mkSearchCall {
  call_query : list Scalar;
  call_nbQuery : Z;
  call_indices : IndMatches;
  call_distances : list DistanceType;
  call_NN : Z
}.

Definition do_search (self : ArrayMatcher_cascadeHashing) (c : SearchCall)
    : SearchResult :=
  SearchNeighbours self (call_query c) (call_nbQuery c)
    (call_indices c) (call_distances c) (call_NN c).

Fixpoint run_searches (self : ArrayMatcher_cascadeHashing)
    (cs : list SearchCall) : list SearchResult :=
  match cs with
  | [] => []
  | c :: cs' =>
      let r := do_search self c in
      r :: run_searches (search_self r) cs'
  end.

End Matcher.

(** ** A model of [CascadeHasher] after the specification

    The module below models the operations of [CascadeHasher.hpp] from
    sections 3 and 4 of the specification, at an exact scalar type:
    descriptors have integer components, means are rational, projections
    and distances are integers. *)

Module Spec.

(** Modelled from the spec: the configuration surface of section 6 (the
    constants of the missing [CascadeHasher]).  The minimum-candidate
    threshold is a tunable of its own, any number of candidates; the
    shortlist has a "size >= k", given by a positive multiplier of k. *)
Record Config : Type := mkConfig {
  primary_bits : nat;
  secondary_bits : nat;
  min_candidates : nat;
  shortlist_multiplier : positive
}.

(** Modelled from the spec: the seeded random source ([std::mt19937]), as the
    sequence of values it is going to yield and the position reached. *)
Record rng : Type := mkRng { rng_values : nat -> Z; rng_pos : nat }.

(** Modelled from the spec: drawing [n] entries of a projection from the
    random source (inside the missing [CascadeHasher::Init]). *)
Definition draw (n : nat) (g : rng) : list Z * rng :=
  (map (rng_values g) (seq (rng_pos g) n),
   mkRng (rng_values g) (rng_pos g + n)).

(** Modelled from the spec: a projection of [r] rows and [d] columns of
    independent entries (inside the missing [CascadeHasher::Init]). *)
Fixpoint draw_matrix (r d : nat) (g : rng) : list (list Z) * rng :=
  match r with
  | O => ([], g)
  | S r' =>
      let '(row, g1) := draw d g in
      let '(rest, g2) := draw_matrix r' d g1 in
      (row :: rest, g2)
  end.

(** Modelled from the spec: the Hashing Model of the missing [CascadeHasher],
    one primary and one secondary projection, a row per code bit. *)
Record Model : Type := mkModel {
  primary_projection : list (list Z);
  secondary_projection : list (list Z)
}.

Definition Model_default : Model := mkModel [] [].

(** Modelled from the spec: [Fit] of section 4.1, the missing
    [CascadeHasher::Init].  It depends on the random source and the dimension
    only, and fails if the dimension is not positive. *)
Definition Init (cfg : Config) (old : Model) (gen : rng) (dimension : Z)
    : bool * Model * rng :=
  if dimension <=? 0 then (false, Model_default, gen)
  else
    let d := Z.to_nat dimension in
    let '(prim, gen1) := draw_matrix (primary_bits cfg) d gen in
    let '(sec, gen2) := draw_matrix (secondary_bits cfg) d gen1 in
    (true, mkModel prim sec, gen2).

(** Coefficient (i, j) of a row-major view.  A read past the end of the
    buffer is undefined in C++; here it yields 0. *)
Definition coeff (m : EigenMap Z) (i j : nat) : Z :=
  nth (i * Z.to_nat (cols m) + j) (data m) 0.

Definition mat_row (m : EigenMap Z) (i : nat) : list Z :=
  map (coeff m i) (seq 0 (Z.to_nat (cols m))).

Definition mat_rows (m : EigenMap Z) : list (list Z) :=
  map (mat_row m) (seq 0 (Z.to_nat (rows m))).

(** Modelled from the spec: [ZeroMean] of section 4.1, the missing
    [CascadeHasher::GetZeroMeanDescriptor]: the element-wise mean of the rows. *)
Definition GetZeroMeanDescriptor (m : EigenMap Z) : list Q :=
  map (fun j =>
         Qmake (foldr Z.add 0 (map (fun i => coeff m i j)
                                   (seq 0 (Z.to_nat (rows m)))))
               (Z.to_pos (rows m)))
      (seq 0 (Z.to_nat (cols m))).

(** Modelled from the spec: a Hashed Descriptor of section 3. *)
Record HashedDescription : Type := mkHashedDescription {
  zero_centered : list Q;
  primary_code : list bool;
  secondary_code : list bool
}.

(** Modelled from the spec: the steps of [Hash] of section 4.1 on one row
    (inside the missing [CascadeHasher::CreateHashedDescriptions]): subtract
    the zero-mean vector, project, and keep one bit per projected
    coordinate, its sign. *)
Definition center (zero_mean : list Q) (row : list Z) : list Q :=
  zip_with (fun x mu => Qminus (inject_Z x) mu) row zero_mean.

Definition dot (p : list Z) (v : list Q) : Q :=
  foldr Qplus (inject_Z 0) (zip_with (fun a b => Qmult (inject_Z a) b) p v).

Definition sign_bit (x : Q) : bool := negb (Qle_bool x (inject_Z 0)).

Definition project (P : list (list Z)) (v : list Q) : list bool :=
  map (fun p => sign_bit (dot p v)) P.

Definition hash_row (model : Model) (zero_mean : list Q) (row : list Z)
    : HashedDescription :=
  let v := center zero_mean row in
  {| zero_centered := v;
     primary_code := project (primary_projection model) v;
     secondary_code := project (secondary_projection model) v |}.

(** Modelled from the spec: the bucket map of the Hashed Index, primary code
    to list of row indices, filled by a single pass over the rows. *)
Definition bucket_insert (b : gmap (list bool) (list nat))
    (c : list bool) (i : nat) : gmap (list bool) (list nat) :=
  <[c := default [] (b !! c) ++ [i]]> b.

Fixpoint fill_buckets (i : nat) (codes : list (list bool))
    (b : gmap (list bool) (list nat)) : gmap (list bool) (list nat) :=
  match codes with
  | [] => b
  | c :: codes' => fill_buckets (S i) codes' (bucket_insert b c i)
  end.

Definition build_buckets (codes : list (list bool))
    : gmap (list bool) (list nat) :=
  fill_buckets 0 codes ∅.

(** Modelled from the spec: the Hashed Index of section 3 (the missing type
    [HashedDescriptions]): the hashed descriptors and the bucket map. *)
Record HashedDescriptions : Type := mkHashedDescriptions {
  hashed_desc : list HashedDescription;
  buckets : gmap (list bool) (list nat)
}.

Definition HashedDescriptions_default : HashedDescriptions :=
  mkHashedDescriptions [] ∅.

(** Modelled from the spec: [Hash] of section 4.1 followed by the bucket pass
    of section 4.2, the missing [CascadeHasher::CreateHashedDescriptions]. *)
Definition CreateHashedDescriptions (model : Model) (m : EigenMap Z)
    (zero_mean : list Q) : HashedDescriptions :=
  let ds := map (hash_row model zero_mean) (mat_rows m) in
  {| hashed_desc := ds;
     buckets := build_buckets (map primary_code ds) |}.

(** Modelled from the spec: Hamming distance of two codes (used by the
    missing [CascadeHasher::Match_HashedDescriptions]). *)
Fixpoint hamming (a b : list bool) : nat :=
  match a, b with
  | x :: a', y :: b' => (if xorb x y then 1 else 0) + hamming a' b'
  | _, _ => 0
  end%nat.

(** Modelled from the spec: one probe of step 2 of section 4.3, the rows of
    the buckets whose key is at Hamming distance [r] of [qc]. *)
Definition probe (b : gmap (list bool) (list nat)) (qc : list bool)
    (r : nat) : list nat :=
  map_to_list b ≫=
    (fun e => if decide (hamming qc e.1 = r) then e.2 else []).

(** Modelled from the spec: step 2 of section 4.3.  Start with the exact
    bucket; while there are fewer candidates than the threshold, probe the
    buckets one more bit away, until every distance has been tried. *)
Fixpoint probe_more (b : gmap (list bool) (list nat)) (qc : list bool)
    (threshold fuel r : nat) (cands : list nat) : list nat :=
  match fuel with
  | O => cands
  | S fuel' =>
      if decide (threshold <= length cands)%nat then cands
      else probe_more b qc threshold fuel' (S r) (cands ++ probe b qc (S r))
  end.

Definition candidates (b : gmap (list bool) (list nat)) (qc : list bool)
    (threshold : nat) : list nat :=
  probe_more b qc threshold (length qc) 0 (probe b qc 0).

Definition nth_desc (ds : list HashedDescription) (i : nat)
    : HashedDescription :=
  default (mkHashedDescription [] [] []) (ds !! i).

(** Modelled from the spec: step 3 of section 4.3, candidates in ascending
    Hamming distance of the secondary codes, cut to the shortlist size. *)
Definition code_le (ds : list HashedDescription) (qs : list bool)
    : relation nat :=
  fun i j => (hamming qs (secondary_code (nth_desc ds i))
              <= hamming qs (secondary_code (nth_desc ds j)))%nat.

#[global] Instance code_le_dec ds qs : RelDecision (code_le ds qs).
Proof. intros i j. unfold code_le. apply _. Defined.

Definition shortlist (ds : list HashedDescription) (qs : list bool)
    (size : nat) (cands : list nat) : list nat :=
  take size (merge_sort (code_le ds qs) cands).

(** Modelled from the spec: the squared Euclidean distance of step 4 of
    section 4.3 (the metric of the missing [feature/metric.hpp]). *)
Definition sqdist (x y : list Z) : Z :=
  foldr Z.add 0 (zip_with (fun a b => (a - b) * (a - b)) x y).

(** Modelled from the spec: the order of step 5 of section 4.3, ascending
    distance with ties broken by the smaller row index, and its strict
    version. *)
Definition dist_idx_le : relation (nat * Z) :=
  fun a b => a.2 < b.2 \/ (a.2 = b.2 /\ (a.1 <= b.1)%nat).


#[global] Instance dist_idx_le_dec : RelDecision dist_idx_le.
Proof. intros a b. unfold dist_idx_le. apply _. Defined.

(** Modelled from the spec: steps 1 to 5 of section 4.3 for the query row
    [qi], the [k] best (row index, distance) pairs. *)
Definition knn (cfg : Config) (hashed_query : HashedDescriptions)
    (mat_query : EigenMap Z) (hashed_base : HashedDescriptions)
    (mat_base : EigenMap Z) (k : nat) (qi : nat) : list (nat * Z) :=
  let q := nth_desc (hashed_desc hashed_query) qi in
  let cands :=
    candidates (buckets hashed_base) (primary_code q)
      (min_candidates cfg) in
  let short :=
    shortlist (hashed_desc hashed_base) (secondary_code q)
      (Pos.to_nat (shortlist_multiplier cfg) * k) cands in
  let scored :=
    map (fun j => (j, sqdist (mat_row mat_query qi) (mat_row mat_base j)))
        short in
  take k (merge_sort dist_idx_le scored).

(** Modelled from the spec: [Search] of section 4.3, the missing
    [CascadeHasher::Match_HashedDescriptions].  The results of the query rows
    are appended in query order to the two output vectors. *)
Definition Match_HashedDescriptions (cfg : Config) (model : Model)
    (hashed_query : HashedDescriptions) (mat_query : EigenMap Z)
    (hashed_base : HashedDescriptions) (mat_base : EigenMap Z)
    (pvec_indices : IndMatches) (pvec_distances : list Z) (NN : Z)
    : IndMatches * list Z :=
  let res :=
    map (knn cfg hashed_query mat_query hashed_base mat_base (Z.to_nat NN))
        (seq 0 (Z.to_nat (rows mat_query))) in
  (pvec_indices ++
     concat (imap (fun qi l => map (fun p => mkIndMatch qi p.1) l) res),
   pvec_distances ++ concat (map (map snd) res)).

(** The interface of the wrapper, filled with the model. *)
#[global] Instance hasher (cfg : Config) : CascadeHasherT :=
  Build_CascadeHasherT
    Z Z rng Model HashedDescriptions (list Q)
    Model_default HashedDescriptions_default []
    (Init cfg) GetZeroMeanDescriptor CreateHashedDescriptions
    (Match_HashedDescriptions cfg).


End Spec.

(** ** A sample instance *)

Module Sample.
Import Spec.

(** A small configuration (one candidate is enough) and the scenario of
    section 8: four points of the plane, the query (1, 1). *)
Definition cfg0 : Config := mkConfig 2 4 1 2.
Definition gen0 : rng := mkRng (fun n => Z.of_nat n mod 5 - 2) 0.
Definition dataset0 : list Z := [0; 0; 10; 10; 0; 10; 10; 0].
Definition query0 : list Z := [1; 1].

(** A fresh matcher, and the matcher built on the four points. *)
Definition fresh0 : ArrayMatcher_cascadeHashing (ops := hasher cfg0) :=
  ArrayMatcher_cascadeHashing_new.
Definition built0 : ArrayMatcher_cascadeHashing (ops := hasher cfg0) :=
  build_self (Build fresh0 gen0 dataset0 4 2).

(** Two requests: the query (1, 1) with one neighbour, and the queries
    (1, 1), (9, 8) with all four. *)
Definition call0 : SearchCall (ops := hasher cfg0) :=
  @mkSearchCall (hasher cfg0) query0 1 [] [] 1.
Definition call1 : SearchCall (ops := hasher cfg0) :=
  @mkSearchCall (hasher cfg0) [1; 1; 9; 8] 2 [] [] 4.

(** The same with a minimum of four candidates: every row is a candidate. *)
Definition cfg4 : Config := mkConfig 2 4 4 2.
Definition fresh4 : ArrayMatcher_cascadeHashing (ops := hasher cfg4) :=
  ArrayMatcher_cascadeHashing_new.
Definition built4 : ArrayMatcher_cascadeHashing (ops := hasher cfg4) :=
  build_self (Build fresh4 gen0 dataset0 4 2).
Definition queries4 : list Z := [1; 1; 9; 8].

End Sample.


(** ** Runs of a matcher

    A client holds one matcher and calls its three operations in any order.
    The generator of a [Build] is the caller's: each call brings its own. *)

Section MatcherRuns.
Context `{ops : CascadeHasherT}.

Inductive Op : Type :=
  | OpBuild (gen : mt19937) (dataset : list Scalar) (nbRows dimension : Z)
  | OpSearchNeighbour (query : list Scalar) (indice : Z)
      (distance : DistanceType) (log : list string)
  | OpSearchNeighbours (c : SearchCall).

(** The matcher after one call. *)
Definition step (self : ArrayMatcher_cascadeHashing) (op : Op)
    : ArrayMatcher_cascadeHashing :=
  match op with
  | OpBuild gen dataset nbRows dimension =>
      build_self (Build self gen dataset nbRows dimension)
  | OpSearchNeighbour query indice distance log =>
      single_self (SearchNeighbour self query indice distance log)
  | OpSearchNeighbours c => search_self (do_search self c)
  end.

Definition run_ops (self : ArrayMatcher_cascadeHashing) (l : list Op)
    : ArrayMatcher_cascadeHashing :=
  fold_left step l self.

Definition is_Build (op : Op) : bool :=
  match op with
  | OpBuild _ _ _ _ => true
  | _ => false
  end.

(** The row count of a [Build] is an [int]. *)
Definition op_int (op : Op) : Prop :=
  match op with
  | OpBuild _ _ nbRows _ => is_int nbRows
  | _ => True
  end.

(** The members agree with each other: a mapped dataset has a row, the
    stored mean is the mean of the mapped dataset, and the stored hashed
    descriptions are those of the mapped dataset under the stored hasher and
    the stored mean.  The mapped dataset is read through the view, so this
    speaks of what the caller's buffer holds now. *)
Definition consistent (self : ArrayMatcher_cascadeHashing) : Prop :=
  match memMapping self with
  | None => True
  | Some m =>
      1 <= rows m /\
      zero_mean_descriptor_ self = GetZeroMeanDescriptor m /\
      hashed_base_ self =
        CreateHashedDescriptions (cascade_hasher_ self) m
          (zero_mean_descriptor_ self)
  end.

(** One single-query request: the query and what the two output locations
    hold before the call. *)
Record SingleCall : Type := mkSingleCall {
  single_query : list Scalar;
  single_call_indice : Z;
  single_call_distance : DistanceType
}.

(** A run of single-query requests on one matcher, the log passed along. *)
Fixpoint run_single_queries (self : ArrayMatcher_cascadeHashing)
    (cs : list SingleCall) (log : list string) : list SingleResult :=
  match cs with
  | [] => []
  | c :: cs' =>
      let r :=
        SearchNeighbour self (single_query c) (single_call_indice c)
          (single_call_distance c) log in
      r :: run_single_queries (single_self r) cs' (single_log r)
  end.

(** [memMapping] is a view on the buffer the caller gave to [Build], not a
    copy of it.  When the caller writes to that buffer the view reads the
    new contents; no member of the matcher is assigned. *)
Definition caller_write (self : ArrayMatcher_cascadeHashing)
    (contents : list Scalar) : ArrayMatcher_cascadeHashing :=
  match memMapping self with
  | None => self
  | Some m =>
      {| memMapping := Some (mkMap contents (rows m) (cols m));
         cascade_hasher_ := cascade_hasher_ self;
         hashed_base_ := hashed_base_ self;
         zero_mean_descriptor_ := zero_mean_descriptor_ self |}
  end.

End MatcherRuns.

(** A sample run: build, search, single query, failed rebuild, rebuild on
    two other points, search. *)
Module SampleRun.
Import Sample.

Definition dataset1 : list Z := [3; 4; 5; 6].

Definition failed0 : ArrayMatcher_cascadeHashing (ops := Spec.hasher cfg0) :=
  build_self (Build built0 gen0 dataset0 0 2).

Definition searches0 : list (Op (ops := Spec.hasher cfg0)) :=
  [@OpSearchNeighbours (Spec.hasher cfg0) call0;
   @OpSearchNeighbour (Spec.hasher cfg0) query0 (-1) 0 []].

Definition ops0 : list (Op (ops := Spec.hasher cfg0)) :=
  [@OpBuild (Spec.hasher cfg0) gen0 dataset0 4 2] ++ searches0 ++
  [@OpBuild (Spec.hasher cfg0) gen0 dataset0 0 2;
   @OpBuild (Spec.hasher cfg0) gen0 dataset1 2 2;
   @OpSearchNeighbours (Spec.hasher cfg0) call0].

Definition singles0 : list (SingleCall (ops := Spec.hasher cfg0)) :=
  [@mkSingleCall (Spec.hasher cfg0) query0 (-1) 0;
   @mkSingleCall (Spec.hasher cfg0) [9; 8] 7 3].

(** The caller overwrites the first scalar of the four points. *)
Definition written0 : ArrayMatcher_cascadeHashing (ops := Spec.hasher cfg0) :=
  caller_write built0 [100; 0; 10; 10; 0; 10; 10; 0].

End SampleRun.

(** * Properties of the wrapper, for every [CascadeHasher] *)

Section MatcherFacts.
Context `{ops : CascadeHasherT}.

Implicit Types (self : ArrayMatcher_cascadeHashing) (gen : mt19937).
Implicit Types (dataset query : list Scalar) (m : EigenMap Scalar).
Implicit Types (pi : IndMatches) (pd : list DistanceType).

Lemma size_t_of_Index_int z : is_int z -> 0 <= z -> size_t_of_Index z = z.
Proof.
  unfold is_int, size_t_of_Index. intros Hz Hpos.
  apply Z.mod_small. split; [done|].
  apply Z.lt_le_trans with (2 ^ 31); [lia|].
  apply Z.pow_le_mono_r; lia.
Qed.

Lemma Build_failed self gen dataset nbRows dimension :
  nbRows < 1 ->
  Build self gen dataset nbRows dimension =
    mkBuildResult false
      (mkMatcher None (cascade_hasher_ self) (hashed_base_ self)
         (zero_mean_descriptor_ self))
      gen.
Proof.
  intros Hn. unfold Build.
  destruct (Z.ltb_spec nbRows 1) as [_|Hge]; [reflexivity | lia].
Qed.

Lemma Build_succeeded self gen dataset nbRows dimension :
  1 <= nbRows ->
  let m := mkMap dataset nbRows dimension in
  let hasher := snd (fst (Init (cascade_hasher_ self) gen dimension)) in
  let zero_mean := GetZeroMeanDescriptor m in
  Build self gen dataset nbRows dimension =
    mkBuildResult true
      (mkMatcher (Some m) hasher
         (CreateHashedDescriptions hasher m zero_mean) zero_mean)
      (snd (Init (cascade_hasher_ self) gen dimension)).
Proof.
  intros Hn. unfold Build.
  destruct (Z.ltb_spec nbRows 1) as [Hlt|_]; [lia|].
  destruct (Init (cascade_hasher_ self) gen dimension) as [[flag h] g].
  reflexivity.
Qed.

Lemma Build_ok_eq self gen dataset nbRows dimension :
  build_ok (Build self gen dataset nbRows dimension) = (1 <=? nbRows).
Proof.
  destruct (Z.leb_spec 1 nbRows) as [Hge|Hlt].
  - by rewrite Build_succeeded.
  - by rewrite Build_failed.
Qed.

Lemma SearchNeighbours_unbuilt self query nbQuery pi pd NN :
  memMapping self = None ->
  SearchNeighbours self query nbQuery pi pd NN =
    mkSearchResult false self pi pd.
Proof. intros Hnull. unfold SearchNeighbours. by rewrite Hnull. Qed.

Lemma SearchNeighbours_rejected self m query nbQuery pi pd NN :
  memMapping self = Some m ->
  NN > size_t_of_Index (rows m) \/ nbQuery < 1 ->
  SearchNeighbours self query nbQuery pi pd NN =
    mkSearchResult false self pi pd.
Proof.
  intros Hm Hbad. unfold SearchNeighbours. rewrite Hm.
  destruct (Z.gtb_spec NN (size_t_of_Index (rows m))) as [Hgt|Hle];
    [reflexivity|].
  destruct (Z.ltb_spec nbQuery 1) as [Hlt|Hge]; [reflexivity|lia].
Qed.

Lemma SearchNeighbours_accepted self m query nbQuery pi pd NN :
  memMapping self = Some m ->
  NN <= size_t_of_Index (rows m) ->
  1 <= nbQuery ->
  let mat_query := mkMap query nbQuery (cols m) in
  let out :=
    Match_HashedDescriptions (cascade_hasher_ self)
      (CreateHashedDescriptions (cascade_hasher_ self) mat_query
         (zero_mean_descriptor_ self))
      mat_query (hashed_base_ self) m pi pd NN in
  SearchNeighbours self query nbQuery pi pd NN =
    mkSearchResult true self (fst out) (snd out).
Proof.
  intros Hm Hk Hq. unfold SearchNeighbours. rewrite Hm.
  destruct (Z.gtb_spec NN (size_t_of_Index (rows m))) as [Hgt|Hle]; [lia|].
  destruct (Z.ltb_spec nbQuery 1) as [Hlt|Hge]; [lia|]. simpl.
  by destruct (Match_HashedDescriptions _ _ _ _ _ _ _ _).
Qed.

Lemma SearchNeighbours_self self query nbQuery pi pd NN :
  search_self (SearchNeighbours self query nbQuery pi pd NN) = self.
Proof.
  unfold SearchNeighbours. destruct (memMapping self) as [m|]; [|done].
  destruct (_ || _); [done|].
  by destruct (Match_HashedDescriptions _ _ _ _ _ _ _ _).
Qed.

Lemma SearchNeighbours_ok_eq self m query nbQuery pi pd NN :
  memMapping self = Some m ->
  search_ok (SearchNeighbours self query nbQuery pi pd NN) =
    negb ((NN >? size_t_of_Index (rows m)) || (nbQuery <? 1)).
Proof.
  intros Hm. unfold SearchNeighbours. rewrite Hm.
  destruct (_ || _); [done|].
  by destruct (Match_HashedDescriptions _ _ _ _ _ _ _ _).
Qed.

Lemma run_searches_unbuilt self (calls : list SearchCall) :
  memMapping self = None ->
  Forall2 (fun c r => r = mkSearchResult false self
                            (call_indices c) (call_distances c))
          calls (run_searches self calls).
Proof.
  intros Hnull. induction calls as [|c calls IH]; simpl; constructor.
  - unfold do_search. by apply SearchNeighbours_unbuilt.
  - unfold do_search. by rewrite SearchNeighbours_self.
Qed.

(** The log after the i-th of a run of single-query requests. *)
Lemma run_single_queries_lookup self (cs : list SingleCall) :
  forall log i c r,
    cs !! i = Some c ->
    run_single_queries self cs log !! i = Some r ->
    r = mkSingleResult false self (single_call_indice c)
          (single_call_distance c)
          (log ++ replicate (S i) single_query_warning).
Proof.
  induction cs as [|c0 cs IH]; intros log i c r Hc Hr; [done|].
  destruct i as [|i]; simpl in *.
  - by injection Hc as <-; injection Hr as <-.
  - rewrite (IH _ i c r Hc Hr). simpl. by rewrite <- app_assoc.
Qed.

(** C5 (amended). The single-query search fails for every query and every
    matcher, built or not, and however often it is asked: each call returns
    [false], does no matching (the matcher is left as it was), assigns
    neither the neighbour index nor the distance, and adds one warning to
    the log. The value returned is the bare [false] that [Build] returns on
    an empty dataset and that a batch search returns on a matcher that was
    never built: the warning in the log is all that names the cause. *)
Theorem SearchNeighbour_fails_with_bare_false
    self (cs : list SingleCall) (log : list string) :
  length (run_single_queries self cs log) = length cs /\
  forall i c r,
    cs !! i = Some c ->
    run_single_queries self cs log !! i = Some r ->
    single_ok r = false /\
    single_self r = self /\
    single_indice r = single_call_indice c /\
    single_distance r = single_call_distance c /\
    single_log r = log ++ replicate (S i) single_query_warning /\
    (forall gen dataset dimension,
       build_ok (Build self gen dataset 0 dimension) = single_ok r) /\
    (forall query nbQuery pi pd NN,
       search_ok (SearchNeighbours ArrayMatcher_cascadeHashing_new
                    query nbQuery pi pd NN) = single_ok r).
Proof.
  split.
  - revert log. induction cs as [|c cs IH]; intros log; simpl; [done|].
    by rewrite IH.
  - intros i c r Hc Hr.
    rewrite (run_single_queries_lookup self cs log i c r Hc Hr).
    cbn [single_ok single_self single_indice single_distance single_log].
    do 5 (split; [reflexivity|]). split.
    + intros gen dataset dimension. rewrite Build_failed by lia. reflexivity.
    + intros query nbQuery pi pd NN.
      rewrite SearchNeighbours_unbuilt by reflexivity. reflexivity.
Qed.

(** C6. Batch search fails whenever the index is not built: on a matcher
    that was never built, and on the matcher left by a failed [Build],
    whatever the matcher was before (a previously built index is discarded).
    Every later search returns [false] and leaves the outputs untouched. *)
Theorem SearchNeighbours_requires_built (calls : list SearchCall) :
  Forall2 (fun c r => search_outcome r =
                        (false, call_indices c, call_distances c))
          calls (run_searches ArrayMatcher_cascadeHashing_new calls) /\
  forall self gen dataset nbRows dimension,
    build_ok (Build self gen dataset nbRows dimension) = false ->
    memMapping (build_self (Build self gen dataset nbRows dimension)) = None /\
    Forall2 (fun c r => search_outcome r =
                          (false, call_indices c, call_distances c))
            calls
            (run_searches
               (build_self (Build self gen dataset nbRows dimension)) calls).
Proof.
  split.
  - eapply Forall2_impl; [by apply run_searches_unbuilt|].
    by intros c r ->.
  - intros self gen dataset nbRows dimension Hfail.
    rewrite Build_ok_eq in Hfail. apply Z.leb_gt in Hfail.
    rewrite Build_failed by lia. simpl. split; [done|].
    eapply Forall2_impl; [by apply run_searches_unbuilt|].
    by intros c r ->.
Qed.

(** C7 (amended). [Build] returns a failure value exactly when the number of
    rows is below one, whatever the dimension: the result of [Init] is
    dropped and the dimension is never tested. *)
Theorem Build_fails_iff_no_rows self gen dataset nbRows dimension :
  build_ok (Build self gen dataset nbRows dimension) = (1 <=? nbRows).
Proof.
  unfold Build. destruct (Z.ltb_spec nbRows 1) as [Hlt|Hge]; simpl.
  - symmetry. by apply Z.leb_gt.
  - destruct (Init (cascade_hasher_ self) gen dimension) as [[flag h] g].
    simpl. symmetry. by apply Z.leb_le.
Qed.

(** C3 (amended). [SearchNeighbours] receives no query length and checks no
    dimension. On an index built with dimension D the query buffer, whatever
    its length, is viewed as [nbQuery] rows of D scalars; the call succeeds
    exactly when [NN] is at most the number of rows and the batch is not
    empty, and then hands this view to the hasher. *)
Theorem SearchNeighbours_ignores_query_length
    self gen dataset nbRows D query nbQuery pi pd NN :
  is_int nbRows -> 1 <= nbRows ->
  let built := build_self (Build self gen dataset nbRows D) in
  let r := SearchNeighbours built query nbQuery pi pd NN in
  let mat_query := mkMap query nbQuery D in
  search_ok r = negb ((NN >? nbRows) || (nbQuery <? 1)) /\
  (search_ok r = true ->
   (search_indices r, search_distances r) =
     Match_HashedDescriptions (cascade_hasher_ built)
       (CreateHashedDescriptions (cascade_hasher_ built) mat_query
          (zero_mean_descriptor_ built))
       mat_query (hashed_base_ built) (mkMap dataset nbRows D) pi pd NN).
Proof.
  intros Hint Hrows. rewrite Build_succeeded by done. simpl.
  set (built := mkMatcher _ _ _ _).
  assert (Hm : memMapping built = Some (mkMap dataset nbRows D)) by done.
  split.
  - rewrite (SearchNeighbours_ok_eq _ _ _ _ _ _ _ Hm). simpl.
    by rewrite size_t_of_Index_int by (done || lia).
  - rewrite (SearchNeighbours_ok_eq _ _ _ _ _ _ _ Hm). simpl.
    rewrite size_t_of_Index_int by (done || lia).
    intros Hok. apply negb_true_iff, orb_false_iff in Hok as [Hk Hq].
    rewrite (SearchNeighbours_accepted built _ query nbQuery pi pd NN Hm).
    + simpl. by destruct (Match_HashedDescriptions _ _ _ _ _ _ _ _).
    + simpl. rewrite size_t_of_Index_int by (done || lia).
      destruct (Z.gtb_spec NN nbRows); [done | lia].
    + by apply Z.ltb_ge.
Qed.

(** C4 (amended). On a built index, a batch search with [NN] above the
    number of rows or with an empty batch fails: it returns [false], appends
    nothing and leaves the matcher as it was. The caller sees the same bare
    [false] as for an index that is not built. *)
Theorem SearchNeighbours_rejects_alike
    self m (unbuilt : ArrayMatcher_cascadeHashing) query nbQuery pi pd NN :
  memMapping self = Some m ->
  memMapping unbuilt = None ->
  NN > size_t_of_Index (rows m) \/ nbQuery < 1 ->
  SearchNeighbours self query nbQuery pi pd NN =
    mkSearchResult false self pi pd /\
  search_outcome (SearchNeighbours self query nbQuery pi pd NN) =
    search_outcome (SearchNeighbours unbuilt query nbQuery pi pd NN).
Proof.
  intros Hm Hnull Hbad.
  rewrite (SearchNeighbours_rejected _ _ _ _ _ _ _ Hm Hbad).
  by rewrite SearchNeighbours_unbuilt.
Qed.

(** C9. After a successful [Build] the stored zero-mean vector is the one
    computed from the dataset, the dataset was hashed with it, and every
    later batch search hashes its queries with this same vector and leaves
    the stored vector as it is. *)
Theorem zero_mean_computed_once
    self gen dataset nbRows dimension (calls : list SearchCall) :
  1 <= nbRows ->
  let m := mkMap dataset nbRows dimension in
  let zero_mean := GetZeroMeanDescriptor m in
  let built := build_self (Build self gen dataset nbRows dimension) in
  let hasher := cascade_hasher_ built in
  zero_mean_descriptor_ built = zero_mean /\
  hashed_base_ built = CreateHashedDescriptions hasher m zero_mean /\
  Forall2
    (fun c r =>
       zero_mean_descriptor_ (search_self r) = zero_mean /\
       (search_ok r = true ->
        let mat_query := mkMap (call_query c) (call_nbQuery c) dimension in
        (search_indices r, search_distances r) =
          Match_HashedDescriptions hasher
            (CreateHashedDescriptions hasher mat_query zero_mean) mat_query
            (CreateHashedDescriptions hasher m zero_mean) m
            (call_indices c) (call_distances c) (call_NN c)))
    calls (run_searches built calls).
Proof.
  intros Hrows. rewrite Build_succeeded by done. simpl.
  set (m := mkMap dataset nbRows dimension).
  set (h := snd (fst (Init (cascade_hasher_ self) gen dimension))).
  set (built := mkMatcher _ _ _ _).
  do 2 (split; [done|]).
  induction calls as [|c calls IH]; simpl; constructor.
  - unfold do_search. rewrite SearchNeighbours_self. split; [done|].
    unfold SearchNeighbours. simpl.
    destruct (_ || _); [done|].
    by destruct (Match_HashedDescriptions _ _ _ _ _ _ _ _).
  - unfold do_search. by rewrite SearchNeighbours_self.
Qed.

(** C10. On a built index a batch of exactly one query row is accepted and
    handled by the batch path; with a valid [NN] only an empty batch
    ([nbQuery < 1]) is rejected; the single-query entry point fails on the
    same matcher and the same query. *)
Theorem SearchNeighbours_single_row_batch self m query pi pd NN :
  memMapping self = Some m ->
  NN <= size_t_of_Index (rows m) ->
  let r := SearchNeighbours self query 1 pi pd NN in
  let mat_query := mkMap query 1 (cols m) in
  search_ok r = true /\
  (search_indices r, search_distances r) =
    Match_HashedDescriptions (cascade_hasher_ self)
      (CreateHashedDescriptions (cascade_hasher_ self) mat_query
         (zero_mean_descriptor_ self))
      mat_query (hashed_base_ self) m pi pd NN /\
  (forall nbQuery,
     search_ok (SearchNeighbours self query nbQuery pi pd NN) =
       negb (nbQuery <? 1)) /\
  (forall indice distance log,
     single_ok (SearchNeighbour self query indice distance log) = false).
Proof.
  intros Hm Hk. simpl.
  rewrite (SearchNeighbours_accepted _ _ query 1 pi pd NN Hm Hk) by lia.
  simpl. split; [done|]. split.
  { by destruct (Match_HashedDescriptions _ _ _ _ _ _ _ _). }
  split; [|done].
  intros nbQuery. rewrite (SearchNeighbours_ok_eq _ _ _ _ _ _ _ Hm).
  destruct (Z.gtb_spec NN (size_t_of_Index (rows m))); [lia | done].
Qed.


End MatcherFacts.

(** * Properties of the model of [CascadeHasher] *)

Module SpecFacts.
Import Spec.


(** *** The bucket map *)







(** *** Candidate generation *)








(** *** Ranking *)



#[local] Instance dist_idx_le_total : Total dist_idx_le.
Proof. intros [i d] [j e]. unfold dist_idx_le. simpl. lia. Qed.

#[local] Instance dist_idx_le_trans : Transitive dist_idx_le.
Proof. intros [i d] [j e] [k f]. unfold dist_idx_le. simpl. lia. Qed.




(** *** The matcher over the model *)




End SpecFacts.

(** * The scenario of section 8, and inputs on which the code departs from
      the specification *)

Module Scenario.
Import Sample.

(** The nearest neighbour of (1, 1) among the four points is row 0, at
    squared distance 2. *)
Example nearest_of_query0 :
  search_outcome (do_search built0 call0) = (true, [mkIndMatch 0 0], [2]).
Proof. vm_compute. reflexivity. Qed.

(** With a minimum of four candidates, all four points are ranked for
    (1, 1) and for (9, 8).  Rows 2 and 3 are both at distance 82 of (1, 1):
    row 2 comes first. *)
Example ranking_of_queries4 :
  search_outcome (SearchNeighbours built4 queries4 2 [] [] 4) =
    (true,
     [mkIndMatch 0 0; mkIndMatch 0 2; mkIndMatch 0 3; mkIndMatch 0 1;
      mkIndMatch 1 1; mkIndMatch 1 3; mkIndMatch 1 2; mkIndMatch 1 0],
     [2; 82; 82; 162; 5; 65; 85; 145]).
Proof. vm_compute. reflexivity. Qed.

(** With a minimum of one candidate, the same search with k = 4 = N returns
    one row per query: the exact bucket holds a row, no other bucket is
    probed. *)
Example ranking_of_call1 :
  search_outcome (do_search built0 call1) =
    (true, [mkIndMatch 0 0; mkIndMatch 1 1], [2; 5]).
Proof. vm_compute. reflexivity. Qed.

(** The single-query entry point on the same matcher and query. *)
Example single_query0 :
  SearchNeighbour built0 query0 (-1) 0 [] =
    mkSingleResult false built0 (-1) 0 [single_query_warning].
Proof. reflexivity. Qed.

(** The bucket map of the four points: one row per bucket. *)
Example buckets_of_built0 :
  map_to_list (Spec.buckets (hashed_base_ built0)) =
    [([true; true], [2%nat]); ([false; true], [1%nat]);
     ([true; false], [0%nat]); ([false; false], [3%nat])].
Proof. vm_compute. reflexivity. Qed.





(** C3, as stated, fails: on the index of dimension 2 a batch of one query
    vector of length 3 is not rejected; its first two scalars are matched. *)
Lemma SearchNeighbours_accepts_longer_query :
  Z.of_nat (length [1; 1; 7]) <> 1 * cols (mkMap dataset0 4 2) /\
  search_outcome (SearchNeighbours built0 [1; 1; 7] 1 [] [] 1) =
    (true, [mkIndMatch 0 0], [2]).
Proof. split; [simpl; lia|]. vm_compute. reflexivity. Qed.

(** C3 (amended) on the four points and the query buffer [1; 1; 7]. *)
Lemma SearchNeighbours_ignores_query_length_witness :
  is_int 4 /\ 1 <= 4 /\
  let r := SearchNeighbours built0 [1; 1; 7] 1 [] [] 1 in
  let mat_query := mkMap [1; 1; 7] 1 2 in
  search_ok r = negb ((1 >? 4) || (1 <? 1)) /\
  (search_ok r = true ->
   (search_indices r, search_distances r) =
     Match_HashedDescriptions (cascade_hasher_ built0)
       (CreateHashedDescriptions (cascade_hasher_ built0) mat_query
          (zero_mean_descriptor_ built0))
       mat_query (hashed_base_ built0) (mkMap dataset0 4 2) [] [] 1).
Proof.
  assert (Hint : is_int 4) by (unfold is_int; lia).
  assert (Hrows : 1 <= 4) by lia.
  do 2 (split; [assumption|]).
  exact (SearchNeighbours_ignores_query_length fresh0 gen0 dataset0 4 2
           [1; 1; 7] 1 [] [] 1 Hint Hrows).
Defined.

(** C4, as stated, fails: a search with k = 5 on the index of four rows and
    the same search on a matcher that was never built give the caller the
    same flag and the same outputs. *)
Lemma SearchNeighbours_failures_look_alike :
  memMapping built0 = Some (mkMap dataset0 4 2) /\
  memMapping fresh0 = None /\
  search_outcome (SearchNeighbours built0 query0 1 [] [] 5) =
    search_outcome (SearchNeighbours fresh0 query0 1 [] [] 5).
Proof. repeat split; vm_compute; reflexivity. Qed.

(** C4 (amended) on the four points with k = 5. *)
Lemma SearchNeighbours_rejects_alike_witness :
  memMapping built0 = Some (mkMap dataset0 4 2) /\
  memMapping fresh0 = None /\
  (5 > size_t_of_Index (rows (mkMap dataset0 4 2)) \/ 1 < 1) /\
  SearchNeighbours built0 query0 1 [] [] 5 =
    mkSearchResult false built0 [] [] /\
  search_outcome (SearchNeighbours built0 query0 1 [] [] 5) =
    search_outcome (SearchNeighbours fresh0 query0 1 [] [] 5).
Proof.
  assert (Hm : memMapping built0 = Some (mkMap dataset0 4 2))
    by reflexivity.
  assert (Hnull : memMapping fresh0 = None) by reflexivity.
  assert (Hbad : 5 > size_t_of_Index (rows (mkMap dataset0 4 2)) \/ 1 < 1)
    by (left; reflexivity).
  do 3 (split; [assumption|]).
  exact (SearchNeighbours_rejects_alike built0 (mkMap dataset0 4 2) fresh0
           query0 1 [] [] 5 Hm Hnull Hbad).
Defined.

(** C6 on a failed rebuild (no rows) of the matcher built on the four
    points. *)
Lemma SearchNeighbours_requires_built_witness :
  build_ok (Build built0 gen0 dataset0 0 2) = false /\
  memMapping (build_self (Build built0 gen0 dataset0 0 2)) = None /\
  Forall2 (fun c r => search_outcome r =
                        (false, call_indices c, call_distances c))
          [call0; call1]
          (run_searches (build_self (Build built0 gen0 dataset0 0 2))
             [call0; call1]).
Proof.
  assert (Hfail : build_ok (Build built0 gen0 dataset0 0 2) = false)
    by reflexivity.
  split; [assumption|].
  exact (proj2 (SearchNeighbours_requires_built [call0; call1])
           built0 gen0 dataset0 0 2 Hfail).
Defined.

(** C7, as stated, fails: with one row and dimension 0 the model of [Init]
    reports a failure, yet [Build] returns [true]. *)
Lemma Build_accepts_dimension_zero :
  0 <= 0 /\
  (Spec.Init cfg0 (cascade_hasher_ fresh0) gen0 0).1.1 = false /\
  build_ok (Build fresh0 gen0 dataset0 1 0) = true.
Proof. split; [lia|]. split; vm_compute; reflexivity. Qed.

(** C9 on the four points and two searches. *)
Lemma zero_mean_computed_once_witness :
  1 <= 4 /\
  let m := mkMap dataset0 4 2 in
  let zero_mean := @GetZeroMeanDescriptor (Spec.hasher cfg0) m in
  let hasher := cascade_hasher_ built0 in
  zero_mean_descriptor_ built0 = zero_mean /\
  hashed_base_ built0 = CreateHashedDescriptions hasher m zero_mean /\
  Forall2
    (fun c r =>
       zero_mean_descriptor_ (search_self r) = zero_mean /\
       (search_ok r = true ->
        let mat_query := mkMap (call_query c) (call_nbQuery c) 2 in
        (search_indices r, search_distances r) =
          Match_HashedDescriptions hasher
            (CreateHashedDescriptions hasher mat_query zero_mean) mat_query
            (CreateHashedDescriptions hasher m zero_mean) m
            (call_indices c) (call_distances c) (call_NN c)))
    [call0; call1] (run_searches built0 [call0; call1]).
Proof.
  assert (Hrows : 1 <= 4) by lia.
  split; [assumption|].
  exact (zero_mean_computed_once fresh0 gen0 dataset0 4 2 [call0; call1]
           Hrows).
Defined.

(** C10 on the four points and the query (1, 1). *)
Lemma SearchNeighbours_single_row_batch_witness :
  memMapping built0 = Some (mkMap dataset0 4 2) /\
  1 <= size_t_of_Index (rows (mkMap dataset0 4 2)) /\
  let r := SearchNeighbours built0 query0 1 [] [] 1 in
  let mat_query := mkMap query0 1 (cols (mkMap dataset0 4 2)) in
  search_ok r = true /\
  (search_indices r, search_distances r) =
    Match_HashedDescriptions (cascade_hasher_ built0)
      (CreateHashedDescriptions (cascade_hasher_ built0) mat_query
         (zero_mean_descriptor_ built0))
      mat_query (hashed_base_ built0) (mkMap dataset0 4 2) [] [] 1 /\
  (forall nbQuery,
     search_ok (SearchNeighbours built0 query0 nbQuery [] [] 1) =
       negb (nbQuery <? 1)) /\
  (forall indice distance log,
     single_ok (SearchNeighbour built0 query0 indice distance log) = false).
Proof.
  assert (Hm : memMapping built0 = Some (mkMap dataset0 4 2))
    by reflexivity.
  assert (Hk : 1 <= size_t_of_Index (rows (mkMap dataset0 4 2)))
    by (vm_compute; discriminate).
  do 2 (split; [assumption|]).
  exact (SearchNeighbours_single_row_batch built0 (mkMap dataset0 4 2)
           query0 [] [] 1 Hm Hk).
Defined.

End Scenario.

(** * Properties of runs, for every [CascadeHasher] *)

Section RunFacts.
Context `{ops : CascadeHasherT}.

Implicit Types (self : ArrayMatcher_cascadeHashing) (gen : mt19937).
Implicit Types (dataset query : list Scalar) (m : EigenMap Scalar).
Implicit Types (pi : IndMatches) (pd : list DistanceType).
Implicit Types (op : Op) (l : list Op).

Lemma step_query self op : is_Build op = false -> step self op = self.
Proof.
  destruct op as [gen dataset nbRows dimension|query indice distance log|c];
    simpl; intros Hop; [discriminate|reflexivity|].
  apply SearchNeighbours_self.
Qed.

Lemma run_ops_cons self op l :
  run_ops self (op :: l) = run_ops (step self op) l.
Proof. reflexivity. Qed.

Lemma run_ops_app self l1 l2 :
  run_ops self (l1 ++ l2) = run_ops (run_ops self l1) l2.
Proof. unfold run_ops. apply fold_left_app. Qed.

Lemma run_ops_queries self l :
  Forall (fun op => is_Build op = false) l -> run_ops self l = self.
Proof.
  induction 1 as [|op l Hop _ IH]; [reflexivity|].
  by rewrite run_ops_cons, step_query.
Qed.

Lemma step_consistent self op : consistent self -> consistent (step self op).
Proof.
  intros Hself.
  destruct op as [gen dataset nbRows dimension|query indice distance log|c].
  - simpl. destruct (Z.lt_ge_cases nbRows 1) as [Hlt|Hge].
    + by rewrite Build_failed.
    + rewrite Build_succeeded by done. unfold consistent. simpl. done.
  - done.
  - by rewrite step_query.
Qed.

Lemma step_rows self op :
  op_int op ->
  (forall m, memMapping self = Some m -> is_int (rows m) /\ 1 <= rows m) ->
  forall m, memMapping (step self op) = Some m ->
    is_int (rows m) /\ 1 <= rows m.
Proof.
  intros Hop Hself.
  destruct op as [gen dataset nbRows dimension|query indice distance log|c].
  - simpl in *. destruct (Z.lt_ge_cases nbRows 1) as [Hlt|Hge].
    + rewrite Build_failed by done. simpl. discriminate.
    + rewrite Build_succeeded by done. simpl. by intros m [= <-].
  - done.
  - by rewrite step_query.
Qed.

Lemma run_ops_rows l : forall self,
  Forall op_int l ->
  (forall m, memMapping self = Some m -> is_int (rows m) /\ 1 <= rows m) ->
  forall m, memMapping (run_ops self l) = Some m ->
    is_int (rows m) /\ 1 <= rows m.
Proof.
  induction l as [|op l IH]; intros self Hl Hself; [done|].
  apply Forall_cons in Hl as [Hop Hl]. rewrite run_ops_cons.
  apply IH; [done|]. by apply step_rows.
Qed.

(** X1. Batch searches do not interfere: in a run of searches on one
    matcher, each result is the result the search has on the matcher the run
    started with. *)
Theorem run_searches_independent self (calls : list SearchCall) :
  run_searches self calls = map (do_search self) calls.
Proof.
  induction calls as [|c calls IH]; simpl; [reflexivity|].
  unfold do_search at 2. by rewrite SearchNeighbours_self, IH.
Qed.

(** X2. Whatever makes [SearchNeighbours] return [false], nothing has been
    written: the two output vectors and the matcher are as before the call. *)
Theorem SearchNeighbours_failure_writes_nothing
    self query nbQuery pi pd NN :
  search_ok (SearchNeighbours self query nbQuery pi pd NN) = false ->
  SearchNeighbours self query nbQuery pi pd NN =
    mkSearchResult false self pi pd.
Proof.
  unfold SearchNeighbours. destruct (memMapping self) as [m|]; [|done].
  destruct (_ || _); [done|].
  destruct (Match_HashedDescriptions _ _ _ _ _ _ _ _). simpl. discriminate.
Qed.

(** X3. A successful [Build] replaces the index: of the matcher it is called
    on it reads the hasher only, so the previous dataset view, hashed
    descriptions and zero-mean vector leave no trace. *)
Theorem Build_replaces_index self1 self2 gen dataset nbRows dimension :
  1 <= nbRows ->
  cascade_hasher_ self1 = cascade_hasher_ self2 ->
  Build self1 gen dataset nbRows dimension =
  Build self2 gen dataset nbRows dimension.
Proof.
  intros Hrows Hhasher. rewrite !Build_succeeded by done.
  by rewrite Hhasher.
Qed.

(** X4. A failed [Build] does not advance the random generator, and a later
    [Build] gives the result it would have given without the failed one. *)
Theorem failed_Build_is_transparent self gen1 dataset1 nbRows1 dimension1 :
  nbRows1 < 1 ->
  let failed := Build self gen1 dataset1 nbRows1 dimension1 in
  build_gen failed = gen1 /\
  forall gen dataset nbRows dimension,
    Build (build_self failed) gen dataset nbRows dimension =
    Build self gen dataset nbRows dimension.
Proof.
  intros Hfail. simpl. rewrite Build_failed by done. simpl.
  split; [reflexivity|]. intros gen dataset nbRows dimension.
  destruct (Z.lt_ge_cases nbRows 1) as [Hlt|Hge].
  - by rewrite !Build_failed.
  - by rewrite !Build_succeeded.
Qed.

(** X5. As long as the caller does not write into the mapped buffer, the
    members of a matcher agree: a fresh matcher is consistent, every [Build]
    leaves a consistent matcher whatever it was called on, and no run of
    calls of the three operations breaks the consistency of a matcher (a
    mapped dataset has at least one row, the stored zero-mean vector is the
    one of that dataset, the stored hashed descriptions are those of that
    dataset under the stored hasher).  A write of the caller into the mapped
    buffer is not among these calls: see [caller_write_breaks_consistency]. *)
Theorem consistency_kept_by_calls :
  consistent ArrayMatcher_cascadeHashing_new /\
  (forall self gen dataset nbRows dimension,
     consistent (build_self (Build self gen dataset nbRows dimension))) /\
  (forall self l, consistent self -> consistent (run_ops self l)).
Proof.
  split; [exact I|]. split.
  - intros self gen dataset nbRows dimension.
    destruct (Z.lt_ge_cases nbRows 1) as [Hlt|Hge].
    + by rewrite Build_failed.
    + rewrite Build_succeeded by done. unfold consistent. simpl. done.
  - intros self l. revert self.
    induction l as [|op l IH]; intros self Hself; [done|].
    rewrite run_ops_cons. by apply IH, step_consistent.
Qed.

(** X6. After any run of calls from a fresh matcher whose [Build] calls
    received [int] row counts, a mapped dataset has between 1 and 2^31 - 1
    rows, so the conversion of the row count to [size_t] in the guard of
    [SearchNeighbours] does not wrap: a search succeeds exactly when [NN] is
    at most the row count and the batch is not empty. *)
Theorem reachable_rows_in_range l m :
  Forall op_int l ->
  memMapping (run_ops ArrayMatcher_cascadeHashing_new l) = Some m ->
  1 <= rows m < 2 ^ 31 /\
  forall query nbQuery pi pd NN,
    search_ok (SearchNeighbours (run_ops ArrayMatcher_cascadeHashing_new l)
                 query nbQuery pi pd NN) =
      (NN <=? rows m) && (1 <=? nbQuery).
Proof.
  intros Hl Hm.
  destruct (run_ops_rows l ArrayMatcher_cascadeHashing_new Hl) with (m := m)
    as [Hint Hrows]; [discriminate|done|].
  split; [unfold is_int in Hint; lia|].
  intros query nbQuery pi pd NN.
  rewrite (SearchNeighbours_ok_eq _ _ _ _ _ _ _ Hm).
  rewrite size_t_of_Index_int by (done || lia).
  destruct (Z.gtb_spec NN (rows m)), (Z.leb_spec NN (rows m)),
    (Z.ltb_spec nbQuery 1), (Z.leb_spec 1 nbQuery); simpl; (done || lia).
Qed.

(** X7. The last [Build] of a run decides: whatever came before it, and
    whatever searches follow it, the matcher is the one that [Build] left;
    its dataset is mapped exactly when that [Build] had at least one row. *)
Theorem last_Build_decides self pre gen dataset nbRows dimension post :
  Forall (fun op => is_Build op = false) post ->
  let final :=
    run_ops self (pre ++ OpBuild gen dataset nbRows dimension :: post) in
  final = build_self (Build (run_ops self pre) gen dataset nbRows dimension)
  /\
  memMapping final =
    if 1 <=? nbRows then Some (mkMap dataset nbRows dimension) else None.
Proof.
  intros Hpost. simpl.
  rewrite run_ops_app, run_ops_cons, run_ops_queries by done. simpl.
  split; [reflexivity|].
  destruct (Z.leb_spec 1 nbRows) as [Hge|Hlt].
  - by rewrite Build_succeeded.
  - by rewrite Build_failed.
Qed.

End RunFacts.

(** * The sample run *)

Module RunScenario.
Import Sample SampleRun.

(** The sample run ends on the matcher built on the two points of
    [dataset1]; the failed rebuild in the middle left no trace. *)
Example run_of_ops0 :
  run_ops fresh0 ops0 = build_self (Build built0 gen0 dataset1 2 2).
Proof. vm_compute. reflexivity. Qed.

(** X2 on a search of a matcher that was never built. *)
Lemma SearchNeighbours_failure_writes_nothing_witness :
  search_ok (SearchNeighbours fresh0 query0 1 [] [] 1) = false /\
  SearchNeighbours fresh0 query0 1 [] [] 1 =
    mkSearchResult false fresh0 [] [].
Proof.
  assert (Hfail : search_ok (SearchNeighbours fresh0 query0 1 [] [] 1) = false)
    by reflexivity.
  split; [assumption|].
  exact (SearchNeighbours_failure_writes_nothing fresh0 query0 1 [] [] 1
           Hfail).
Defined.

(** X3 on the matcher built on the four points and the same matcher after a
    failed rebuild: both hold the same hasher, only one maps a dataset. *)
Lemma Build_replaces_index_witness :
  1 <= 2 /\
  cascade_hasher_ built0 = cascade_hasher_ failed0 /\
  Build built0 gen0 dataset1 2 2 = Build failed0 gen0 dataset1 2 2.
Proof.
  assert (Hrows : 1 <= 2) by lia.
  assert (Hhasher : cascade_hasher_ built0 = cascade_hasher_ failed0)
    by reflexivity.
  do 2 (split; [assumption|]).
  exact (Build_replaces_index built0 failed0 gen0 dataset1 2 2
           Hrows Hhasher).
Defined.

(** X4 on a failed rebuild (no rows) of the matcher built on the four
    points. *)
Lemma failed_Build_is_transparent_witness :
  0 < 1 /\
  let failed := Build built0 gen0 dataset0 0 2 in
  build_gen failed = gen0 /\
  forall gen dataset nbRows dimension,
    Build (build_self failed) gen dataset nbRows dimension =
    Build built0 gen dataset nbRows dimension.
Proof.
  assert (Hfail : 0 < 1) by lia.
  split; [assumption|].
  exact (failed_Build_is_transparent built0 gen0 dataset0 0 2 Hfail).
Defined.

(** X6 on the sample run, which ends with the two rows of [dataset1]
    mapped. *)
Lemma reachable_rows_in_range_witness :
  Forall op_int ops0 /\
  memMapping (run_ops fresh0 ops0) = Some (mkMap dataset1 2 2) /\
  1 <= rows (mkMap dataset1 2 2) < 2 ^ 31 /\
  forall query nbQuery pi pd NN,
    search_ok (SearchNeighbours (run_ops fresh0 ops0) query nbQuery pi pd NN)
      = (NN <=? rows (mkMap dataset1 2 2)) && (1 <=? nbQuery).
Proof.
  assert (Hint : Forall op_int ops0).
  { unfold ops0, searches0. simpl.
    repeat (apply Forall_cons; split); try apply Forall_nil;
      simpl; unfold is_int; (exact I || lia). }
  assert (Hm : memMapping (run_ops fresh0 ops0) = Some (mkMap dataset1 2 2))
    by reflexivity.
  do 2 (split; [assumption|]).
  exact (reachable_rows_in_range ops0 (mkMap dataset1 2 2) Hint Hm).
Defined.

(** X7 on a build on two points, then a build on the four points followed
    by a batch search and a single query. *)
Lemma last_Build_decides_witness :
  Forall (fun op => is_Build op = false) searches0 /\
  let pre := [@OpBuild (Spec.hasher cfg0) gen0 dataset1 2 2] in
  let final :=
    run_ops fresh0
      (pre ++ @OpBuild (Spec.hasher cfg0) gen0 dataset0 4 2 :: searches0) in
  final = build_self (Build (run_ops fresh0 pre) gen0 dataset0 4 2) /\
  memMapping final =
    if 1 <=? 4 then Some (mkMap dataset0 4 2) else None.
Proof.
  assert (Hpost : Forall (fun op => is_Build op = false) searches0).
  { unfold searches0. repeat (apply Forall_cons; split);
      try apply Forall_nil; reflexivity. }
  split; [assumption|].
  exact (last_Build_decides fresh0
           [@OpBuild (Spec.hasher cfg0) gen0 dataset1 2 2]
           gen0 dataset0 4 2 searches0 Hpost).
Defined.

(** C5, as stated, fails: the value the single-query search returns on the
    built matcher is the value a batch search returns on a matcher that was
    never built, and the value [Build] returns on an empty dataset. *)
Lemma SearchNeighbour_failure_not_distinct :
  single_ok (SearchNeighbour built0 query0 (-1) 0 []) =
    search_ok (SearchNeighbours fresh0 query0 1 [] [] 1) /\
  single_ok (SearchNeighbour built0 query0 (-1) 0 []) =
    build_ok (Build fresh0 gen0 dataset0 0 2).
Proof. split; reflexivity. Qed.

(** C5 (amended) on the second of two single queries on the built matcher. *)
Lemma SearchNeighbour_fails_with_bare_false_witness :
  singles0 !! 1%nat = Some (@mkSingleCall (Spec.hasher cfg0) [9; 8] 7 3) /\
  run_single_queries built0 singles0 [] !! 1%nat =
    Some (mkSingleResult false built0 7 3
            [single_query_warning; single_query_warning]) /\
  let r :=
    mkSingleResult false built0 7 3
      [single_query_warning; single_query_warning] in
  single_ok r = false /\
  single_self r = built0 /\
  single_indice r = 7 /\
  single_distance r = 3 /\
  single_log r = [] ++ replicate 2 single_query_warning /\
  (forall gen dataset dimension,
     build_ok (Build built0 gen dataset 0 dimension) = single_ok r) /\
  (forall query nbQuery pi pd NN,
     search_ok (SearchNeighbours fresh0 query nbQuery pi pd NN) =
       single_ok r).
Proof.
  assert (Hc : singles0 !! 1%nat =
               Some (@mkSingleCall (Spec.hasher cfg0) [9; 8] 7 3))
    by reflexivity.
  assert (Hr : run_single_queries built0 singles0 [] !! 1%nat =
               Some (mkSingleResult false built0 7 3
                       [single_query_warning; single_query_warning]))
    by reflexivity.
  do 2 (split; [assumption|]).
  exact (proj2 (SearchNeighbour_fails_with_bare_false built0 singles0 [])
           1%nat _ _ Hc Hr).
Defined.


(** The two runs of the C8 witness find row 0 of [dataset1] at distance 0. *)
Example search_after_rebuild :
  search_outcome
    (SearchNeighbours (build_self (Build failed0 gen0 dataset1 2 2))
       [3; 4] 1 [] [] 1) =
    (true, [mkIndMatch 0 0], [0]).
Proof. vm_compute. reflexivity. Qed.

(** X5 on the matcher built on the four points and the sample searches. *)
Lemma consistency_kept_by_calls_witness :
  consistent built0 /\ consistent (run_ops built0 searches0).
Proof.
  assert (Hbuilt : consistent built0).
  { split; [simpl; lia|]. split; reflexivity. }
  split; [assumption|].
  exact (proj2 (proj2 consistency_kept_by_calls) built0 searches0 Hbuilt).
Defined.

(** A write of the caller into the mapped buffer leaves the stored mean and
    hashed descriptions as they were: they no longer are those of the mapped
    dataset. *)
Example caller_write_breaks_consistency : ~ consistent written0.
Proof.
  intros (_ & Hmean & _). vm_compute in Hmean. discriminate Hmean.
Qed.

End RunScenario.
